(** * Ashley deal calculator: pricing, tax and margin engine

    A shallow embedding of the arithmetic of [src/main.jsx] (the React
    component [AshleyDealCalculator]) and of the test helpers in
    [tests/helpers/utils/calculations.js], followed by the properties of
    the pricing engine.

    JavaScript numbers are modelled as exact rationals extended with the
    three IEEE special values ([Infinity], [-Infinity], [NaN]).  Finite
    results are therefore exact: binary64 rounding and overflow are outside
    the model, and so is the sign of zero (every zero behaves as [+0]). *)

From Stdlib Require Import ZArith QArith Qcanon Qround Lqa Lia.
From Stdlib Require Import List String Ascii Bool DecimalString DecimalN.
Import ListNotations.

Local Open Scope Qc_scope.

(* ================================================================= *)
(** * Part I: definitions *)
(* ================================================================= *)

(** ** JavaScript numbers *)

Module JS.

Inductive number : Type :=
| Fin (q : Qc)
| PInf
| NInf
| NaN.

Definition Qcltb (x y : Qc) : bool :=
  match x ?= y with Lt => true | _ => false end.
Definition Qcleb (x y : Qc) : bool :=
  match x ?= y with Gt => false | _ => true end.
Definition Qceqb (x y : Qc) : bool :=
  match x ?= y with Eq => true | _ => false end.

(** Literals: an integer, and a decimal fraction [n/d]. *)
Definition ofZ (z : Z) : number := Fin (Q2Qc (inject_Z z)).
Definition dec (n : Z) (d : positive) : number := Fin (Q2Qc (n # d)).

(** The sign of a number, as a comparison with zero ([Eq] also for NaN). *)
Definition sgn (a : number) : comparison :=
  match a with
  | Fin q => q ?= 0
  | PInf => Gt
  | NInf => Lt
  | NaN => Eq
  end.

Definition sgn_mul (c1 c2 : comparison) : comparison :=
  match c1, c2 with
  | Eq, _ | _, Eq => Eq
  | Gt, Gt | Lt, Lt => Gt
  | _, _ => Lt
  end.

(** The infinity of a given sign; a zero sign stands for [0 * Infinity]
    or [0 / 0], which are NaN. *)
Definition inf_of_sign (c : comparison) : number :=
  match c with Gt => PInf | Lt => NInf | Eq => NaN end.

Definition neg (a : number) : number :=
  match a with
  | Fin q => Fin (- q)
  | PInf => NInf
  | NInf => PInf
  | NaN => NaN
  end.

Definition add (a b : number) : number :=
  match a, b with
  | NaN, _ | _, NaN => NaN
  | Fin x, Fin y => Fin (x + y)
  | PInf, NInf | NInf, PInf => NaN
  | PInf, _ | _, PInf => PInf
  | NInf, _ | _, NInf => NInf
  end.

Definition sub (a b : number) : number := add a (neg b).

Definition mul (a b : number) : number :=
  match a, b with
  | NaN, _ | _, NaN => NaN
  | Fin x, Fin y => Fin (x * y)
  | _, _ => inf_of_sign (sgn_mul (sgn a) (sgn b))
  end.

(** Division never throws: a finite number over zero is an infinity of the
    sign of the numerator, and [0 / 0] is NaN. *)
Definition div (a b : number) : number :=
  match a, b with
  | NaN, _ | _, NaN => NaN
  | Fin x, Fin y => if Qceqb y 0 then inf_of_sign (x ?= 0) else Fin (x / y)
  | Fin _, _ => Fin 0
  | _, Fin y => inf_of_sign (sgn_mul (sgn a) (if Qcltb y 0 then Lt else Gt))
  | _, _ => NaN
  end.

(** Comparison; [None] when either side is NaN, so that every relational
    operator is false there. *)
Definition compare (a b : number) : option comparison :=
  match a, b with
  | NaN, _ | _, NaN => None
  | Fin x, Fin y => Some (x ?= y)
  | PInf, PInf | NInf, NInf => Some Eq
  | PInf, _ | _, NInf => Some Gt
  | NInf, _ | _, PInf => Some Lt
  end.

Definition ltb (a b : number) : bool :=
  match compare a b with Some Lt => true | _ => false end.
Definition leb (a b : number) : bool :=
  match compare a b with Some Lt | Some Eq => true | _ => false end.
Definition gtb (a b : number) : bool := ltb b a.
Definition geb (a b : number) : bool := leb b a.

(** [a === b] on two numbers. *)
Definition strict_eq (a b : number) : bool :=
  match compare a b with Some Eq => true | _ => false end.

(** Truthiness of a number, and [a || d]. *)
Definition truthy (a : number) : bool :=
  match a with
  | Fin q => negb (Qceqb q 0)
  | NaN => false
  | _ => true
  end.

Definition or_else (a d : number) : number := if truthy a then a else d.


Definition Math_round (a : number) : number :=
  match a with
  | Fin q => ofZ (Qfloor (this q + (1 # 2))%Q)
  | _ => a
  end.





(** Equality of two numbers as values (unlike [===], NaN equals itself). *)
Definition number_eqb (a b : number) : bool :=
  match a, b with
  | Fin x, Fin y => Qceqb x y
  | PInf, PInf | NInf, NInf | NaN, NaN => true
  | _, _ => false
  end.

(** *** Strings to numbers

    Strings are byte strings; the white space skipped in front of a
    numeral is the ASCII part of the JavaScript white space set. *)

Definition is_space (c : ascii) : bool :=
  match nat_of_ascii c with
  | 9%nat | 10%nat | 11%nat | 12%nat | 13%nat | 32%nat => true
  | _ => false
  end.

Definition is_digit (c : ascii) : bool :=
  ((48 <=? nat_of_ascii c) && (nat_of_ascii c <=? 57))%nat.

Definition digit_val (c : ascii) : Z := Z.of_nat (nat_of_ascii c) - 48.

(** Value of a hexadecimal digit, if it is one. *)
Definition hex_val (c : ascii) : option Z :=
  let n := nat_of_ascii c in
  if is_digit c then Some (Z.of_nat n - 48)%Z
  else if ((97 <=? n) && (n <=? 102))%nat then Some (Z.of_nat n - 87)%Z
  else if ((65 <=? n) && (n <=? 70))%nat then Some (Z.of_nat n - 55)%Z
  else None.

Fixpoint skip_spaces (s : string) : string :=
  match s with
  | String c r => if is_space c then skip_spaces r else s
  | EmptyString => s
  end.

(** The longest run of decimal digits in front of [s]: its value on top
    of [acc], the number of digits read (added to [n]) and the rest. *)
Fixpoint read_digits (s : string) (acc : Z) (n : nat) : Z * nat * string :=
  match s with
  | String c r =>
      if is_digit c then read_digits r (10 * acc + digit_val c)%Z (S n)
      else (acc, n, s)
  | EmptyString => (acc, n, s)
  end.

Fixpoint read_hex (s : string) (acc : Z) (n : nat) : Z * nat * string :=
  match s with
  | String c r =>
      match hex_val c with
      | Some v => read_hex r (16 * acc + v)%Z (S n)
      | None => (acc, n, s)
      end
  | EmptyString => (acc, n, s)
  end.

(** An optional sign in front of a numeral. *)
Definition read_sign (s : string) : bool * string :=
  match s with
  | String "-" r => (true, r)
  | String "+" r => (false, r)
  | _ => (false, s)
  end.

(** The exponent part [e], [e+] or [e-] followed by digits; it counts
    only when at least one digit follows. *)
Definition read_exponent (s : string) : Z :=
  match s with
  | String c r =>
      if (Ascii.eqb c "e" || Ascii.eqb c "E")%bool then
        let '(negative, r1) := read_sign r in
        let '(ev, n, _) := read_digits r1 0%Z 0%nat in
        if (n =? 0)%nat then 0%Z else if negative then (- ev)%Z else ev
      else 0%Z
  | EmptyString => 0%Z
  end.

(** [parseFloat(s)]: the value of the longest prefix of the trimmed
    string that is a decimal literal, NaN when there is none. *)
Definition parseFloat (s : string) : number :=
  let '(negative, s1) := read_sign (skip_spaces s) in
  let signed (a : number) := if negative then neg a else a in
  if String.prefix "Infinity" s1 then signed PInf
  else
    let '(ip, ni, s2) := read_digits s1 0%Z 0%nat in
    let '(fp, nf, s3) :=
      match s2 with
      | String "." r => read_digits r 0%Z 0%nat
      | _ => (0%Z, 0%nat, s2)
      end in
    if (ni + nf =? 0)%nat then NaN
    else
      let e := read_exponent s3 in
      signed (Fin (Q2Qc ((inject_Z ip + inject_Z fp / inject_Z (10 ^ Z.of_nat nf))
                         * Qpower (10 # 1) e)%Q)).

(** [parseInt(s)] without a radix: decimal, or hexadecimal after [0x]. *)
Definition parseInt (s : string) : number :=
  let '(negative, s1) := read_sign (skip_spaces s) in
  let '(v, n, _) :=
    match s1 with
    | String "0" (String x r) =>
        if (Ascii.eqb x "x" || Ascii.eqb x "X")%bool then read_hex r 0%Z 0%nat
        else read_digits s1 0%Z 0%nat
    | _ => read_digits s1 0%Z 0%nat
    end in
  if (n =? 0)%nat then NaN else ofZ (if negative then - v else v)%Z.

(** *** Numbers to strings *)

Definition string_of_nat_Z (z : Z) : string :=
  NilZero.string_of_uint (N.to_uint (Z.to_N z)).

Definition two_digits (z : Z) : string :=
  ((if z <? 10 then "0" else "") ++ string_of_nat_Z z)%Z%string.

(** [x.toFixed(2)]: the nearest number of cents, the larger one on a tie,
    printed in fixed notation (the exponent notation that [toFixed]
    switches to from 1e21 on is not modelled). *)
Definition toFixed2 (a : number) : string :=
  match a with
  | NaN => "NaN"
  | PInf => "Infinity"
  | NInf => "-Infinity"
  | Fin q =>
      let negative := Qcltb q 0 in
      let x := if negative then - q else q in
      let n := Qfloor (this (x * Q2Qc (inject_Z 100)) + (1 # 2))%Q in
      ((if negative then "-" else "")
         ++ string_of_nat_Z (n / 100) ++ "." ++ two_digits (n mod 100))%string
  end.

End JS.

Import JS.

(** Rational constants that the statements use. *)
Notation "'Q100'" := (Q2Qc (inject_Z 100)).
Notation "'Q50'" := (Q2Qc (inject_Z 50)).
Notation "'Q47'" := (Q2Qc (inject_Z 47)).
Notation "'QTAX'" := (Q2Qc (109125 # 100000)).

(** ** tests/fixtures/test-data.js and tests/helpers/utils/calculations.js *)

Module Calc.

(** [export const TAX_RATE = 0.09125;] *)
Definition TAX_RATE : number := dec 9125 100000.

Definition calculateMargin (salePrice landingCost : number) : number :=
  if strict_eq salePrice (ofZ 0) then ofZ 0
  else mul (div (sub salePrice landingCost) salePrice) (ofZ 100).

Definition priceForMargin (landingCost targetMargin : number) : number :=
  let marginDecimal := div targetMargin (ofZ 100) in
  div landingCost (sub (ofZ 1) marginDecimal).


Definition addTax (price : number) : number :=
  mul price (add (ofZ 1) TAX_RATE).

Definition roundMoney (value : number) : number :=
  div (Math_round (mul value (ofZ 100))) (ofZ 100).





Definition applySalePercent (tagPrice salePercent : number) : number :=
  let discountMultiplier := sub (ofZ 1) (div salePercent (ofZ 100)) in
  mul tagPrice discountMultiplier.

(** The object returned by [analyzeOtdPrice]. *)
Module Analysis.
Record t : Type := mk {
  salePrice : number;
  margin : number;
  profit : number
}.
End Analysis.


End Calc.

(** ** src/main.jsx: the margin primitives *)

Module App.

(** [const TAX_RATE = 9.125;] (a percentage here). *)
Definition TAX_RATE : number := dec 9125 1000.

Definition calculateMargin (salePrice landingCost : number) : number :=
  if leb salePrice (ofZ 0) then ofZ 0
  else
    let profit := sub salePrice landingCost in
    mul (div profit salePrice) (ofZ 100).

Definition priceForMargin (landingCost targetMarginPercent : number) : number :=
  let margin := div targetMarginPercent (ofZ 100) in
  div landingCost (sub (ofZ 1) margin).

(** [parseMoney(str)]: [parseFloat(String(str).replace(/[$,]/g, '')) || 0]. *)
Fixpoint strip_money (s : string) : string :=
  match s with
  | String c r =>
      if (Ascii.eqb c "$" || Ascii.eqb c ",")%bool then strip_money r
      else String c (strip_money r)
  | EmptyString => EmptyString
  end.

Definition parseMoney (str : string) : number :=
  or_else (parseFloat (strip_money str)) (ofZ 0).

(** *** The state of the component *)

Inductive Mode : Type := quote | margin | otd.
Inductive PriceType : Type := sale | tag.

(** A line item as the form holds it.  The three input fields are the
    strings of the form controls ([qty] is the string that [parseInt]
    sees, ["1"] for the initial number 1); [selectedMargin] is [null] or
    a number, [originalPrice] is [undefined] or a saved price field. *)
Module Item.
Record t : Type := mk {
  id : Z;
  name : string;
  price : string;
  qty : string;
  landingCost : string;
  marginSet : bool;
  selectedMargin : option number;
  originalPrice : option string
}.
End Item.

Record State : Type := mkState {
  mode : Mode;
  salePercent : number;
  noTaxPromo : bool;
  priceType : PriceType;
  delivery : string;
  items : list Item.t;
  otdPrice : string
}.

(** *** Calculate totals *)

Definition taxRate : number := div TAX_RATE (ofZ 100).

Definition discount (st : State) : number := div (salePercent st) (ofZ 100).
Definition deliveryAmount (st : State) : number := parseMoney (delivery st).
Definition deliveryTax (st : State) : number := mul (deliveryAmount st) taxRate.

(** An entry of [calculatedItems]: the item it was computed from (the
    spread [...item]) and the fields written over it. *)
Module CalcItem.
Record t : Type := mk {
  item : Item.t;
  salePrice : number;
  invoicePrice : number;
  quotePrice : number;
  lineTotal : number;
  qty : number;
  landingCost : number;
  totalLandingCost : number;
  margin : option number;
  profitPerUnit : option number;
  totalProfit : option number;
  priceAt50 : option number;
  priceAt49 : option number;
  priceAt48 : option number;
  priceAt47 : option number
}.
End CalcItem.

(** [rawPrice] when the price type is a sale price, the tag price after
    the discount otherwise. *)
Definition discounted (st : State) (rawPrice : number) : number :=
  match priceType st with
  | sale => rawPrice
  | tag => mul rawPrice (sub (ofZ 1) (discount st))
  end.

(** The three prices [(salePrice, invoicePrice, quotePrice)] of an item. *)
Definition resolvePrices (st : State) (item : Item.t) (rawPrice : number)
  : number * number * number :=
  let withTax := add (ofZ 1) taxRate in
  match mode st with
  | quote =>
      if noTaxPromo st then
        let quotePrice := discounted st rawPrice in
        let invoicePrice := div quotePrice withTax in
        (invoicePrice, invoicePrice, quotePrice)
      else
        let salePrice := discounted st rawPrice in
        (salePrice, salePrice, mul salePrice withTax)
  | margin =>
      if (Item.marginSet item && gtb rawPrice (ofZ 0))%bool then
        let invoicePrice := rawPrice in
        (invoicePrice, invoicePrice, mul invoicePrice withTax)
      else if (gtb rawPrice (ofZ 0) && noTaxPromo st)%bool then
        let quotePrice := discounted st rawPrice in
        let invoicePrice := div quotePrice withTax in
        (invoicePrice, invoicePrice, quotePrice)
      else
        let salePrice := discounted st rawPrice in
        (salePrice, salePrice,
         if gtb salePrice (ofZ 0) then mul salePrice withTax else ofZ 0)
  | otd =>
      let salePrice := discounted st rawPrice in
      (salePrice, salePrice, mul salePrice withTax)
  end.

(** The callback of [items.map(...)] in [calculatedItems]. *)
Definition calculateItem (st : State) (item : Item.t) : CalcItem.t :=
  let rawPrice := parseMoney (Item.price item) in
  let qty := or_else (parseInt (Item.qty item)) (ofZ 1) in
  let landingCost := parseMoney (Item.landingCost item) in
  let '(_, invoicePrice, quotePrice) := resolvePrices st item rawPrice in
  let lineTotal := mul invoicePrice qty in
  let known := (gtb landingCost (ofZ 0) && gtb invoicePrice (ofZ 0))%bool in
  let margin :=
    if known then Some (calculateMargin invoicePrice landingCost) else None in
  let totalLandingCost := mul landingCost qty in
  let profitPerUnit :=
    if known then Some (sub invoicePrice landingCost) else None in
  let totalProfit := option_map (fun p => mul p qty) profitPerUnit in
  let priceAt (m : Z) :=
    if gtb landingCost (ofZ 0)
    then Some (priceForMargin landingCost (ofZ m)) else None in
  CalcItem.mk item invoicePrice invoicePrice quotePrice lineTotal qty
    landingCost totalLandingCost margin profitPerUnit totalProfit
    (priceAt 50%Z) (priceAt 49%Z) (priceAt 48%Z) (priceAt 47%Z).

(** The predicate of [.filter(...)] in [calculatedItems]. *)
Definition keepItem (item : CalcItem.t) : bool :=
  (gtb (CalcItem.lineTotal item) (ofZ 0)
   || gtb (CalcItem.landingCost item) (ofZ 0))%bool.

Definition calculatedItems (st : State) : list CalcItem.t :=
  filter keepItem (map (calculateItem st) (items st)).

(** [xs.reduce((sum, item) => sum + f(item), 0)] *)
Definition reduce_sum {A : Type} (f : A -> number) (xs : list A) : number :=
  fold_left (fun sum item => add sum (f item)) xs (ofZ 0).

(** [v || 0] for a value that is [null] or a number. *)
Definition or_zero (v : option number) : number :=
  match v with
  | Some a => or_else a (ofZ 0)
  | None => ofZ 0
  end.

Definition subtotal (st : State) : number :=
  reduce_sum CalcItem.lineTotal (calculatedItems st).

Definition totalLandingCost (st : State) : number :=
  reduce_sum CalcItem.totalLandingCost (calculatedItems st).

Definition totalProfit (st : State) : number :=
  reduce_sum (fun item => or_zero (CalcItem.totalProfit item))
    (calculatedItems st).

Definition overallMargin (st : State) : option number :=
  if (gtb (subtotal st) (ofZ 0) && gtb (totalLandingCost st) (ofZ 0))%bool
  then Some (calculateMargin (subtotal st) (totalLandingCost st))
  else None.

Definition taxOnMerchandise (st : State) : number := mul (subtotal st) taxRate.

Definition totalTax (st : State) : number :=
  add (taxOnMerchandise st) (deliveryTax st).

Definition customerTotal (st : State) : number :=
  match mode st, noTaxPromo st with
  | quote, true =>
      let quoteSubtotal :=
        reduce_sum
          (fun item => mul (CalcItem.quotePrice item) (CalcItem.qty item))
          (calculatedItems st) in
      add (add quoteSubtotal (deliveryAmount st)) (deliveryTax st)
  | _, _ =>
      add (add (add (subtotal st) (taxOnMerchandise st)) (deliveryAmount st))
        (deliveryTax st)
  end.

(** *** OTD calculations

    The block is a function of the parsed offer, the delivery amount and
    the total landing cost; [otdOf] instantiates it on the state. *)
Record Otd : Type := mkOtd {
  otdAmount : number;
  otdDeliveryWithTax : number;
  otdMerchandiseWithTax : number;
  otdSalePrice : number;
  otdMerchandiseTax : number;
  otdMargin : option number;
  otdProfit : number
}.

Definition otdCalc (otdAmount deliveryAmount totalLandingCost : number) : Otd :=
  let deliveryTax := mul deliveryAmount taxRate in
  let otdDeliveryWithTax := add deliveryAmount deliveryTax in
  let otdMerchandiseWithTax := sub otdAmount otdDeliveryWithTax in
  let otdSalePrice := div otdMerchandiseWithTax (add (ofZ 1) taxRate) in
  let otdMerchandiseTax := sub otdMerchandiseWithTax otdSalePrice in
  let otdMargin :=
    if gtb totalLandingCost (ofZ 0)
    then Some (calculateMargin otdSalePrice totalLandingCost) else None in
  let otdProfit := sub otdSalePrice totalLandingCost in
  mkOtd otdAmount otdDeliveryWithTax otdMerchandiseWithTax otdSalePrice
    otdMerchandiseTax otdMargin otdProfit.

Definition otdOf (st : State) : Otd :=
  otdCalc (parseMoney (otdPrice st)) (deliveryAmount st) (totalLandingCost st).

(** *** Margin targets on an item *)

(** [item.selectedMargin === targetMargin] *)
Definition selected_is (sel : option number) (targetMargin : number) : bool :=
  match sel with
  | Some m => strict_eq m targetMargin
  | None => false
  end.

(** The saved price that a click restores: there is one when the click is
    on the target already selected and a price was saved
    ([item.selectedMargin === targetMargin && item.originalPrice !== undefined]). *)
Definition restorable (item : Item.t) (targetMargin : number) : option string :=
  if selected_is (Item.selectedMargin item) targetMargin
  then Item.originalPrice item else None.

(** The callback of [items.map(...)] in [setItemToMargin]. *)
Definition setMarginOn (itemId : Z) (targetMargin : number) (item : Item.t)
  : Item.t :=
  if (Item.id item =? itemId)%Z then
    let landingCost := parseMoney (Item.landingCost item) in
    if gtb landingCost (ofZ 0) then
      match restorable item targetMargin with
      | Some saved =>
          Item.mk (Item.id item) (Item.name item) saved (Item.qty item)
            (Item.landingCost item) false None None
      | None =>
          let originalPrice :=
            if Item.marginSet item then Item.originalPrice item
            else Some (Item.price item) in
          let invoicePrice := priceForMargin landingCost targetMargin in
          Item.mk (Item.id item) (Item.name item) (toFixed2 invoicePrice)
            (Item.qty item) (Item.landingCost item) true (Some targetMargin)
            originalPrice
      end
    else item
  else item.

Definition setItemToMargin (items : list Item.t) (itemId : Z)
  (targetMargin : number) : list Item.t :=
  map (setMarginOn itemId targetMargin) items.

(** [updateItemPrice]: a manual edit of the price field. *)
Definition updateItemPrice (items : list Item.t) (id : Z) (value : string)
  : list Item.t :=
  map (fun item =>
         if (Item.id item =? id)%Z then
           Item.mk (Item.id item) (Item.name item) value (Item.qty item)
             (Item.landingCost item) false None None
         else item) items.

(** *** Margin badges *)

Definition getMarginColor (margin : number) : string :=
  if geb margin (ofZ 50) then "#2e7d32"
  else if geb margin (ofZ 47) then "#f57c00"
  else "#c62828".

Definition getMarginLabel (margin : number) : string :=
  if geb margin (ofZ 50) then "✓ Great"
  else if geb margin (ofZ 47) then "⚠️ OK"
  else "✗ Too Low".

(** The class of the overall-margin badge, the background of the per-item
    badge and the status line of the OTD panel, which repeat the two
    thresholds inline. *)
Definition overallBadgeClass (overallMargin : number) : string :=
  if geb overallMargin (ofZ 50) then "green"
  else if geb overallMargin (ofZ 47) then "orange"
  else "red".

Definition itemBadgeBackground (margin : number) : string :=
  if geb margin (ofZ 50) then "#e8f5e9"
  else if geb margin (ofZ 47) then "#fff3e0"
  else "#ffebee".

Definition otdStatus (otdMargin : number) : string :=
  if geb otdMargin (ofZ 50) then "✓ APPROVED"
  else if geb otdMargin (ofZ 47) then "⚠️ MANAGER OK?"
  else "✗ TOO LOW".

(** *** The list of items *)

(** [addItem]; [now] is the value of [Date.now()]. *)
Definition addItem (now : Z) (items : list Item.t) : list Item.t :=
  items ++ [Item.mk now "" "" "1" "" false None None].





(** [calculate]: [true] when the results are shown, [false] when an alert
    refuses the input. *)
Definition calculate (st : State) : bool :=
  match mode st with
  | otd =>
      if leb (parseMoney (otdPrice st)) (ofZ 0) then false
      else existsb (fun item => gtb (parseMoney (Item.landingCost item)) (ofZ 0))
             (items st)
  | margin =>
      existsb (fun item => gtb (parseMoney (Item.landingCost item)) (ofZ 0))
        (items st)
  | quote =>
      let validItems :=
        filter (fun item => gtb (parseMoney (Item.price item)) (ofZ 0))
          (items st) in
      negb (List.length validItems =? 0)%nat
  end.

(** *** The OTD panel *)



(** *** The scroll wheel picker *)

Module Wheel.
Record t : Type := mk {
  thousands : number;
  hundreds : number;
  tens : number;
  ones : number;
  tenCents : number;
  cents : number
}.
End Wheel.



Inductive Column : Type :=
  thousands | hundreds | tens | ones | tenCents | cents.

Definition maxValues (column : Column) : number :=
  match column with
  | thousands => ofZ 99
  | _ => ofZ 9
  end.

Definition getColumn (w : Wheel.t) (column : Column) : number :=
  match column with
  | thousands => Wheel.thousands w
  | hundreds => Wheel.hundreds w
  | tens => Wheel.tens w
  | ones => Wheel.ones w
  | tenCents => Wheel.tenCents w
  | cents => Wheel.cents w
  end.

Definition setColumn (w : Wheel.t) (column : Column) (v : number) : Wheel.t :=
  match column with
  | thousands =>
      Wheel.mk v (Wheel.hundreds w) (Wheel.tens w) (Wheel.ones w)
        (Wheel.tenCents w) (Wheel.cents w)
  | hundreds =>
      Wheel.mk (Wheel.thousands w) v (Wheel.tens w) (Wheel.ones w)
        (Wheel.tenCents w) (Wheel.cents w)
  | tens =>
      Wheel.mk (Wheel.thousands w) (Wheel.hundreds w) v (Wheel.ones w)
        (Wheel.tenCents w) (Wheel.cents w)
  | ones =>
      Wheel.mk (Wheel.thousands w) (Wheel.hundreds w) (Wheel.tens w) v
        (Wheel.tenCents w) (Wheel.cents w)
  | tenCents =>
      Wheel.mk (Wheel.thousands w) (Wheel.hundreds w) (Wheel.tens w)
        (Wheel.ones w) v (Wheel.cents w)
  | cents =>
      Wheel.mk (Wheel.thousands w) (Wheel.hundreds w) (Wheel.tens w)
        (Wheel.ones w) (Wheel.tenCents w) v
  end.

Definition updateWheelColumn (prev : Wheel.t) (column : Column)
  (direction : number) : Wheel.t :=
  let newValue := add (getColumn prev column) direction in
  let newValue := if ltb newValue (ofZ 0) then maxValues column else newValue in
  let newValue := if gtb newValue (maxValues column) then ofZ 0 else newValue in
  setColumn prev column newValue.



End App.

(** ** The specification's formulas

    Definitions that follow the words of the specification, to be compared
    with the code above. *)

Module Spec.

(** The sum [Σ f(x)] over a list. *)
Definition sigma {A : Type} (f : A -> number) (xs : list A) : number :=
  fold_right (fun x acc => add (f x) acc) (ofZ 0) xs.

(** [TAX_RATE = 0.09125], [addTax] and [removeTax]. *)
Definition TAX_RATE : number := dec 9125 100000.
Definition addTax (preTaxAmount : number) : number :=
  mul preTaxAmount (add (ofZ 1) TAX_RATE).
Definition removeTax (taxInclusiveAmount : number) : number :=
  div taxInclusiveAmount (add (ofZ 1) TAX_RATE).

(** Customer total: [Σ(quotePrice × qty) + deliveryFee + deliveryTax] in
    Quote mode with the no-tax promotion, and
    [invoiceSubtotal + merchandiseTax + deliveryFee + deliveryTax] in all
    other cases. *)
Definition customerTotal (st : App.State) : number :=
  let aggregated := App.calculatedItems st in
  let deliveryFee := App.deliveryAmount st in
  let deliveryTax := mul deliveryFee TAX_RATE in
  match App.mode st, App.noTaxPromo st with
  | App.quote, true =>
      add (add (sigma (fun item => mul (App.CalcItem.quotePrice item)
                                       (App.CalcItem.qty item)) aggregated)
               deliveryFee) deliveryTax
  | _, _ =>
      let invoiceSubtotal := sigma App.CalcItem.lineTotal aggregated in
      let merchandiseTax := mul invoiceSubtotal TAX_RATE in
      add (add (add invoiceSubtotal merchandiseTax) deliveryFee) deliveryTax
  end.

(** [priceForMargin] with the guard the specification asks for: a target
    of exactly 100 signals [InvalidMarginTarget]. *)
Inductive Failure : Type := InvalidMarginTarget.

Definition priceForMargin (landingCost targetMarginPercent : number)
  : Failure + number :=
  if strict_eq targetMarginPercent (ofZ 100) then inl InvalidMarginTarget
  else inr (div landingCost (sub (ofZ 1) (div targetMarginPercent (ofZ 100)))).

End Spec.

(** ** Notions used in the statements *)





(** ** Sample deals

    Items and states on which the properties below are evaluated. *)

Module Sample.

(** The initial item of the form, and a sofa at 1200 that lands at 600. *)
Definition blank : App.Item.t :=
  App.Item.mk 1 "" "" "1" "" false None None.
Definition sofa : App.Item.t :=
  App.Item.mk 2 "Sofa" "1200" "1" "600" false None None.

(** The sofa after a click on the 50% target. *)
Definition sofa_at_50 : App.Item.t :=
  App.Item.mk 2 "Sofa" "1200.00" "1" "600" true (Some (ofZ 50))
    (Some "1200"%string).

(** A priced item without a landing cost. *)
Definition unlanded : App.Item.t :=
  App.Item.mk 3 "Chair" "450" "2" "" false None None.

(** The item of the end-to-end test "should handle zero quantity". *)
Definition zero_qty : App.Item.t :=
  App.Item.mk 1 "" "1000" "0" "500" false None None.


(** The settings of the documented examples: 30% off, delivery 135. *)
Definition deal (m : App.Mode) (noTaxPromo : bool) (pt : App.PriceType)
  (items : list App.Item.t) : App.State :=
  App.mkState m (ofZ 30) noTaxPromo pt "135" items "".

(** Three items with distinct ids. *)
Definition three_items : list App.Item.t := [blank; sofa; unlanded].

(** Margin Check with the tax shown apart, on the sofa alone. *)
Definition margin_deal : App.State := deal App.margin false App.sale [sofa].


(** A wheel showing 12345.67. *)
Definition wheel_12345_67 : App.Wheel.t :=
  App.Wheel.mk (ofZ 12) (ofZ 3) (ofZ 4) (ofZ 5) (ofZ 6) (ofZ 7).

End Sample.

(* ================================================================= *)
(** * Part II: properties *)
(* ================================================================= *)

(** ** Rational arithmetic helpers *)

Lemma Qcltb_lt (x y : Qc) : Qcltb x y = true <-> x < y.
Proof.
  unfold Qcltb. rewrite Qclt_alt.
  destruct (x ?= y); split; congruence.
Qed.

Lemma Qcleb_le (x y : Qc) : Qcleb x y = true <-> x <= y.
Proof.
  unfold Qcleb. rewrite Qcle_alt.
  destruct (x ?= y); split; congruence.
Qed.

Lemma Qceqb_eq (x y : Qc) : Qceqb x y = true <-> x = y.
Proof.
  unfold Qceqb. rewrite Qceq_alt.
  destruct (x ?= y); split; congruence.
Qed.

Lemma Qceqb_neq (x y : Qc) : Qceqb x y = false <-> x <> y.
Proof.
  rewrite <- Qceqb_eq. destruct (Qceqb x y); split; congruence.
Qed.


Lemma Qcleb_nle (x y : Qc) : Qcleb x y = false <-> y < x.
Proof.
  split; intro H.
  - apply Qcnot_le_lt. rewrite <- Qcleb_le. congruence.
  - destruct (Qcleb x y) eqn:E; [|reflexivity].
    apply Qcleb_le in E. elim (Qclt_not_le _ _ H E).
Qed.

(** Moving a statement on canonical rationals to plain rationals, where
    [lra] applies. *)
Ltac qc_to_q :=
  unfold Qclt, Qcle, Qcdiv, Qcminus, Qcplus, Qcmult, Qcinv, Qcopp in *;
  cbn [this Q2Qc] in *;
  rewrite ?Qred_correct in *.


Lemma Qinv_hundred : (/ inject_Z 100 == 1 # 100)%Q.
Proof. reflexivity. Qed.

Ltac qc_lra := qc_to_q; rewrite ?Qinv_hundred in *; unfold inject_Z in *; lra.



Lemma ltb_Fin (a b : Qc) : ltb (Fin a) (Fin b) = Qcltb a b.
Proof. unfold ltb, Qcltb, compare. destruct (a ?= b); reflexivity. Qed.

Lemma leb_Fin (a b : Qc) : leb (Fin a) (Fin b) = Qcleb a b.
Proof. unfold leb, Qcleb, compare. destruct (a ?= b); reflexivity. Qed.


Lemma div_Fin (a b : Qc) : b <> 0 -> div (Fin a) (Fin b) = Fin (a / b).
Proof.
  intro Hb. unfold div. apply Qceqb_neq in Hb. rewrite Hb. reflexivity.
Qed.

Lemma priceForMargin_Fin (L m : Qc) :
  m <> Q100 ->
  App.priceForMargin (Fin L) (Fin m) = Fin (L / (1 - m / Q100)).
Proof.
  intro Hm. unfold App.priceForMargin, ofZ.
  rewrite div_Fin by discriminate.
  unfold sub, neg, add. change (Q2Qc (inject_Z 1)) with 1.
  rewrite div_Fin; [reflexivity|].
  intro E. apply Hm.
  transitivity (Q100 * (1 - (1 + - (m / Q100)))); [field; discriminate|].
  rewrite E. reflexivity.
Qed.

Lemma calculateMargin_pos (p l : Qc) :
  0 < p -> App.calculateMargin (Fin p) (Fin l) = Fin ((p - l) / p * Q100).
Proof.
  intro Hp. unfold App.calculateMargin, ofZ.
  rewrite leb_Fin.
  replace (Qcleb p (Q2Qc (inject_Z 0))) with false
    by (symmetry; apply Qcleb_nle; exact Hp).
  unfold sub, neg, add. rewrite div_Fin by (apply not_eq_sym, Qclt_not_eq, Hp).
  reflexivity.
Qed.


(** ** Algebra of the extended numbers *)

Lemma Fin_eq (a b : Qc) : (this a == this b)%Q -> Fin a = Fin b.
Proof. intro H. f_equal. apply Qc_is_canon, H. Qed.

Lemma add_comm (a b : number) : add a b = add b a.
Proof.
  destruct a, b; cbn; try reflexivity. f_equal. apply Qcplus_comm.
Qed.

Lemma add_assoc (a b c : number) : add a (add b c) = add (add a b) c.
Proof.
  destruct a, b, c; cbn; try reflexivity. f_equal. apply Qcplus_assoc.
Qed.

Lemma add_0_l (a : number) : add (ofZ 0) a = a.
Proof.
  destruct a; cbn; try reflexivity. f_equal. apply Qcplus_0_l.
Qed.

Lemma add_0_r (a : number) : add a (ofZ 0) = a.
Proof. rewrite add_comm. apply add_0_l. Qed.

(** ** Sums: [reduce] against [Σ] *)

Lemma fold_add_shift {A : Type} (f : A -> number) (xs : list A) (a : number) :
  fold_left (fun sum item => add sum (f item)) xs a
  = add a (fold_left (fun sum item => add sum (f item)) xs (ofZ 0)).
Proof.
  revert a. induction xs as [|x xs IH]; intro a; cbn [fold_left].
  - symmetry. apply add_0_r.
  - rewrite IH. rewrite (IH (add (ofZ 0) (f x))).
    rewrite add_0_l. symmetry. apply add_assoc.
Qed.

Lemma reduce_sum_sigma {A : Type} (f : A -> number) (xs : list A) :
  App.reduce_sum f xs = Spec.sigma f xs.
Proof.
  unfold App.reduce_sum.
  induction xs as [|x xs IH]; cbn [fold_left Spec.sigma fold_right].
  - reflexivity.
  - rewrite fold_add_shift, add_0_l. unfold Spec.sigma in IH.
    rewrite IH. reflexivity.
Qed.

(** ** The tax rate *)

Lemma taxRate_value : App.taxRate = Spec.TAX_RATE.
Proof. apply Fin_eq. reflexivity. Qed.


Lemma one_plus_tax : add (ofZ 1) Spec.TAX_RATE = Fin QTAX.
Proof. apply Fin_eq. reflexivity. Qed.

Lemma QTAX_nz : QTAX <> 0.
Proof. discriminate. Qed.

(** ** Customer total *)

(** C1. For every state (line items and settings) the customer total of the
    code is the total of the specification: in Quote mode with the no-tax
    promotion, the sum over the aggregated items of [quotePrice × qty] plus
    the delivery fee and the delivery tax; otherwise the invoice subtotal
    plus the merchandise tax, the delivery fee and the delivery tax, where
    both taxes are the amount times 0.09125. *)
Theorem customerTotal_formula (st : App.State) :
  App.customerTotal st = Spec.customerTotal st.
Proof.
  unfold App.customerTotal, Spec.customerTotal, App.taxOnMerchandise,
    App.deliveryTax, App.subtotal.
  rewrite !reduce_sum_sigma, taxRate_value.
  destruct (App.mode st), (App.noTaxPromo st); reflexivity.
Qed.

(** ** Tax conversions *)





(** ** Margin primitives *)



(** The margin of a finite price and landing cost is a finite number. *)
Lemma calculateMargin_finite (p l : Qc) :
  exists q : Qc, App.calculateMargin (Fin p) (Fin l) = Fin q.
Proof.
  destruct (Qclt_le_dec 0 p) as [Hp|Hp].
  - rewrite calculateMargin_pos by assumption. eexists; reflexivity.
  - unfold App.calculateMargin, ofZ. rewrite leb_Fin.
    replace (Qcleb p (Q2Qc (inject_Z 0))) with true
      by (symmetry; apply Qcleb_le; exact Hp).
    eexists; reflexivity.
Qed.

(** ** OTD back-calculation *)

Lemma gtb_Fin (a b : Qc) : gtb (Fin a) (Fin b) = Qcltb b a.
Proof. apply ltb_Fin. Qed.

(** C2. For every finite offer, delivery fee and total landing cost (zero
    and negative values included) the OTD block returns finite numbers:
    the sale price is [removeTax(otdOffer - deliveryFee - deliveryTax)],
    the profit is the sale price minus the total landing cost, and the
    margin is [calculateMargin(salePrice, totalLandingCost)] when the total
    landing cost is positive and [null] otherwise. *)
Theorem otd_back_calculation (otdOffer deliveryFee totalLandingCost : Qc) :
  App.otdSalePrice
    (App.otdCalc (Fin otdOffer) (Fin deliveryFee) (Fin totalLandingCost))
  = Spec.removeTax
      (sub (sub (Fin otdOffer) (Fin deliveryFee))
           (mul (Fin deliveryFee) Spec.TAX_RATE)) /\
  (exists s : Qc,
     App.otdSalePrice
       (App.otdCalc (Fin otdOffer) (Fin deliveryFee) (Fin totalLandingCost))
     = Fin s) /\
  App.otdProfit
    (App.otdCalc (Fin otdOffer) (Fin deliveryFee) (Fin totalLandingCost))
  = sub (App.otdSalePrice
           (App.otdCalc (Fin otdOffer) (Fin deliveryFee)
              (Fin totalLandingCost)))
        (Fin totalLandingCost) /\
  (exists p : Qc,
     App.otdProfit
       (App.otdCalc (Fin otdOffer) (Fin deliveryFee) (Fin totalLandingCost))
     = Fin p) /\
  App.otdMargin
    (App.otdCalc (Fin otdOffer) (Fin deliveryFee) (Fin totalLandingCost))
  = (if Qcltb 0 totalLandingCost
     then Some (App.calculateMargin
                  (App.otdSalePrice
                     (App.otdCalc (Fin otdOffer) (Fin deliveryFee)
                        (Fin totalLandingCost)))
                  (Fin totalLandingCost))
     else None) /\
  (exists q : Qc,
     App.calculateMargin
       (App.otdSalePrice
          (App.otdCalc (Fin otdOffer) (Fin deliveryFee) (Fin totalLandingCost)))
       (Fin totalLandingCost)
     = Fin q).
Proof.
  unfold App.otdCalc, Spec.removeTax.
  cbn [App.otdSalePrice App.otdProfit App.otdMargin].
  rewrite taxRate_value, one_plus_tax.
  unfold Spec.TAX_RATE, dec. cbn [mul add sub neg].
  rewrite !div_Fin by exact QTAX_nz.
  split; [apply (f_equal Fin); field; exact QTAX_nz|].
  split; [eexists; reflexivity|].
  split; [reflexivity|].
  split; [eexists; reflexivity|].
  unfold ofZ. rewrite gtb_Fin. change (Q2Qc (inject_Z 0)) with 0.
  split; [reflexivity|].
  apply calculateMargin_finite.
Qed.

(** An offer below the delivery floor gives a negative sale price, a
    result like any other. *)
Example otd_below_delivery_floor :
  exists s : Qc,
    App.otdSalePrice (App.otdCalc (ofZ 100) (ofZ 135) (ofZ 100)) = Fin s /\
    s < 0.
Proof.
  eexists. split; [vm_compute; reflexivity|]. reflexivity.
Qed.

(** ** Division by zero in [priceForMargin] *)

Lemma priceForMargin_at_100 (L : Qc) :
  App.priceForMargin (Fin L) (ofZ 100) = inf_of_sign (L ?= 0).
Proof. reflexivity. Qed.

(** C7, as stated, fails: at a target of 100 the code divides by zero and
    returns [Infinity]; it signals nothing, where the guarded function of
    the specification signals [InvalidMarginTarget]. *)
Lemma priceForMargin_unguarded :
  App.priceForMargin (ofZ 600) (ofZ 100) = PInf /\
  Spec.priceForMargin (ofZ 600) (ofZ 100) = inl Spec.InvalidMarginTarget /\
  Spec.priceForMargin (ofZ 600) (ofZ 100)
  <> inr (App.priceForMargin (ofZ 600) (ofZ 100)).
Proof.
  split; [reflexivity|]. split; [reflexivity|]. discriminate.
Qed.

(** C7, amended. For each of the supported targets 50, 49, 48 and 47 the
    divisor is not zero: [priceForMargin] returns the finite quotient
    [L / (1 - m/100)], as the guarded function of the specification does.
    There is no guard: at a target of exactly 100 the division by zero is
    carried out and the result is an infinity of the sign of the landing
    cost (NaN for a landing cost of 0), not an error. *)
Theorem priceForMargin_supported_targets (L m : Qc) :
  In m (map (fun z => Q2Qc (inject_Z z)) [50; 49; 48; 47]%Z) ->
  App.priceForMargin (Fin L) (Fin m) = Fin (L / (1 - m / Q100)) /\
  Spec.priceForMargin (Fin L) (Fin m)
  = inr (App.priceForMargin (Fin L) (Fin m)) /\
  App.priceForMargin (Fin L) (ofZ 100) = inf_of_sign (L ?= 0).
Proof.
  intro Hm.
  assert (Hne : m <> Q100).
  { cbn in Hm. intuition (subst; discriminate). }
  split; [apply priceForMargin_Fin, Hne|].
  split; [|apply priceForMargin_at_100].
  unfold Spec.priceForMargin, strict_eq, compare, ofZ.
  apply Qceqb_neq in Hne. unfold Qceqb in Hne.
  destruct (m ?= Q100); try discriminate; reflexivity.
Qed.

Lemma priceForMargin_supported_targets_witness :
  In (Q2Qc (inject_Z 47)) (map (fun z => Q2Qc (inject_Z z)) [50; 49; 48; 47]%Z) /\
  App.priceForMargin (ofZ 530) (ofZ 47)
  = Fin (Q2Qc (inject_Z 530) / (1 - Q2Qc (inject_Z 47) / Q100)).
Proof.
  assert (H : In (Q2Qc (inject_Z 47))
                (map (fun z => Q2Qc (inject_Z z)) [50; 49; 48; 47]%Z)).
  { cbn. right; right; right; left. reflexivity. }
  split; [exact H|].
  exact (proj1 (priceForMargin_supported_targets
                  (Q2Qc (inject_Z 530)) (Q2Qc (inject_Z 47)) H)).
Defined.

(** ** Margin badges *)

Lemma geb_Fin (a b : Qc) : geb (Fin a) (Fin b) = Qcleb b a.
Proof. apply leb_Fin. Qed.

Lemma Qcleb_true (a b : Qc) : a <= b -> Qcleb a b = true.
Proof. apply Qcleb_le. Qed.

Lemma Qcleb_false (a b : Qc) : b < a -> Qcleb a b = false.
Proof. apply Qcleb_nle. Qed.

(** C5. A margin of at least 50 is labelled Great and shown in green; a
    margin of at least 47 and below 50 is labelled OK and shown in orange;
    a margin below 47 is labelled Too Low and shown in red.  The class of
    the overall badge, the background of the per-item badge and the status
    of the OTD panel use the same two thresholds. *)
Theorem margin_badge_bands (m : Qc) :
  (Q50 <= m ->
   App.getMarginLabel (Fin m) = "✓ Great"%string /\
   App.getMarginColor (Fin m) = "#2e7d32"%string /\
   App.overallBadgeClass (Fin m) = "green"%string /\
   App.itemBadgeBackground (Fin m) = "#e8f5e9"%string /\
   App.otdStatus (Fin m) = "✓ APPROVED"%string) /\
  (Q47 <= m -> m < Q50 ->
   App.getMarginLabel (Fin m) = "⚠️ OK"%string /\
   App.getMarginColor (Fin m) = "#f57c00"%string /\
   App.overallBadgeClass (Fin m) = "orange"%string /\
   App.itemBadgeBackground (Fin m) = "#fff3e0"%string /\
   App.otdStatus (Fin m) = "⚠️ MANAGER OK?"%string) /\
  (m < Q47 ->
   App.getMarginLabel (Fin m) = "✗ Too Low"%string /\
   App.getMarginColor (Fin m) = "#c62828"%string /\
   App.overallBadgeClass (Fin m) = "red"%string /\
   App.itemBadgeBackground (Fin m) = "#ffebee"%string /\
   App.otdStatus (Fin m) = "✗ TOO LOW"%string).
Proof.
  unfold App.getMarginLabel, App.getMarginColor, App.overallBadgeClass,
    App.itemBadgeBackground, App.otdStatus, ofZ.
  rewrite !geb_Fin.
  split; [|split].
  - intro H. rewrite (Qcleb_true _ _ H). repeat split.
  - intros H47 H50.
    rewrite (Qcleb_false _ _ H50), (Qcleb_true _ _ H47). repeat split.
  - intro H47.
    assert (H50 : m < Q50) by (eapply Qclt_trans; [exact H47|reflexivity]).
    rewrite (Qcleb_false _ _ H50), (Qcleb_false _ _ H47). repeat split.
Qed.

(** The boundaries: exactly 47 is orange, exactly 50 is green, 46.99 is
    red. *)
Lemma margin_badge_boundaries :
  (App.getMarginLabel (ofZ 47) = "⚠️ OK"%string /\
   App.getMarginColor (ofZ 47) = "#f57c00"%string) /\
  (App.getMarginLabel (ofZ 50) = "✓ Great"%string /\
   App.getMarginColor (ofZ 50) = "#2e7d32"%string) /\
  (App.getMarginLabel (dec 4699 100) = "✗ Too Low"%string /\
   App.getMarginColor (dec 4699 100) = "#c62828"%string).
Proof.
  split; [|split].
  - assert (H1 : Q47 <= Q47) by discriminate.
    assert (H2 : Q47 < Q50) by reflexivity.
    destruct (proj1 (proj2 (margin_badge_bands Q47)) H1 H2) as (Hl & Hc & _).
    split; [exact Hl | exact Hc].
  - assert (H : Q50 <= Q50) by discriminate.
    destruct (proj1 (margin_badge_bands Q50) H) as (Hl & Hc & _).
    split; [exact Hl | exact Hc].
  - assert (H : Q2Qc (4699 # 100) < Q47) by reflexivity.
    destruct (proj2 (proj2 (margin_badge_bands (Q2Qc (4699 # 100)))) H)
      as (Hl & Hc & _).
    split; [exact Hl | exact Hc].
Defined.

(** ** Margin targets on an item *)

Lemma compare_refl (t : number) : t <> NaN -> compare t t = Some Eq.
Proof.
  destruct t; intro H; cbn; try reflexivity; [|congruence].
  f_equal. apply Qceq_alt. reflexivity.
Qed.

Lemma strict_eq_refl (t : number) : t <> NaN -> strict_eq t t = true.
Proof. intro H. unfold strict_eq. rewrite compare_refl by exact H. reflexivity. Qed.

Lemma compare_antisym (a b : number) :
  compare b a = option_map CompOpp (compare a b).
Proof.
  destruct a, b; cbn; try reflexivity.
  f_equal. unfold Qccompare. symmetry. apply Qcompare_antisym.
Qed.

Lemma leb_not_gtb (a b : number) : leb a b = true -> gtb a b = false.
Proof.
  unfold leb, gtb, ltb. rewrite (compare_antisym a b).
  destruct (compare a b) as [[]|]; cbn; congruence.
Qed.

(** A first click on a target, on an item with a positive landing cost
    and no target selected. *)
Lemma setMarginOn_first (it : App.Item.t) (t : number) :
  gtb (App.parseMoney (App.Item.landingCost it)) (ofZ 0) = true ->
  App.Item.marginSet it = false ->
  App.Item.selectedMargin it = None ->
  App.setMarginOn (App.Item.id it) t it
  = App.Item.mk (App.Item.id it) (App.Item.name it)
      (toFixed2 (App.priceForMargin
                   (App.parseMoney (App.Item.landingCost it)) t))
      (App.Item.qty it) (App.Item.landingCost it) true (Some t)
      (Some (App.Item.price it)).
Proof.
  intros Hl Hset Hsel. unfold App.setMarginOn, App.restorable.
  rewrite Z.eqb_refl, Hl, Hsel, Hset. reflexivity.
Qed.

(** A click on the selected target, with a saved price. *)
Lemma setMarginOn_restore (it : App.Item.t) (t : number) (saved : string) :
  gtb (App.parseMoney (App.Item.landingCost it)) (ofZ 0) = true ->
  App.Item.selectedMargin it = Some t ->
  App.Item.originalPrice it = Some saved ->
  t <> NaN ->
  App.setMarginOn (App.Item.id it) t it
  = App.Item.mk (App.Item.id it) (App.Item.name it) saved
      (App.Item.qty it) (App.Item.landingCost it) false None None.
Proof.
  intros Hl Hsel Horig Ht. unfold App.setMarginOn, App.restorable.
  rewrite Z.eqb_refl, Hl, Hsel, Horig. cbn [App.selected_is].
  rewrite strict_eq_refl by exact Ht. reflexivity.
Qed.

(** C6. On an item with a positive landing cost and no margin target
    selected, two clicks in a row on the same target restore the price
    field to what it was before the first click and clear [marginSet],
    [selectedMargin] and [originalPrice]; between the two clicks the price
    field holds the price for the target and the old price is saved. *)
Theorem margin_target_toggle (items : list App.Item.t) (i : nat)
  (it : App.Item.t) (t : number) :
  nth_error items i = Some it ->
  gtb (App.parseMoney (App.Item.landingCost it)) (ofZ 0) = true ->
  App.Item.marginSet it = false ->
  App.Item.selectedMargin it = None ->
  t <> NaN ->
  nth_error (App.setItemToMargin items (App.Item.id it) t) i
  = Some (App.Item.mk (App.Item.id it) (App.Item.name it)
            (toFixed2 (App.priceForMargin
                         (App.parseMoney (App.Item.landingCost it)) t))
            (App.Item.qty it) (App.Item.landingCost it) true (Some t)
            (Some (App.Item.price it))) /\
  nth_error
    (App.setItemToMargin (App.setItemToMargin items (App.Item.id it) t)
       (App.Item.id it) t) i
  = Some (App.Item.mk (App.Item.id it) (App.Item.name it)
            (App.Item.price it) (App.Item.qty it) (App.Item.landingCost it)
            false None None).
Proof.
  intros Hi Hl Hset Hsel Ht.
  unfold App.setItemToMargin.
  rewrite !nth_error_map, Hi. cbn [option_map].
  rewrite (setMarginOn_first it t Hl Hset Hsel).
  split; [reflexivity|]. f_equal.
  set (it1 := App.Item.mk _ _ _ _ _ _ _ _).
  change (App.Item.id it) with (App.Item.id it1).
  rewrite (setMarginOn_restore it1 t (App.Item.price it)); try reflexivity;
    assumption.
Qed.

(** ** Items without a landing cost *)

Lemma setMarginOn_no_landing (itemId : Z) (t : number) (it : App.Item.t) :
  (App.Item.id it = itemId ->
   leb (App.parseMoney (App.Item.landingCost it)) (ofZ 0) = true) ->
  App.setMarginOn itemId t it = it.
Proof.
  intro H. unfold App.setMarginOn.
  destruct (Z.eqb_spec (App.Item.id it) itemId) as [E|E]; [|reflexivity].
  rewrite (leb_not_gtb _ _ (H E)). reflexivity.
Qed.

(** C10. When the landing cost of the item that is clicked (every item of
    the list that carries the clicked id) parses to a value at most 0,
    [setItemToMargin] returns the list of items unchanged, whatever the
    target: no field of any item is modified. *)
Theorem setItemToMargin_without_landing (items : list App.Item.t)
  (itemId : Z) (t : number) :
  (forall it, In it items -> App.Item.id it = itemId ->
     leb (App.parseMoney (App.Item.landingCost it)) (ofZ 0) = true) ->
  App.setItemToMargin items itemId t = items.
Proof.
  unfold App.setItemToMargin.
  induction items as [|it items IH]; intro H; cbn [map]; [reflexivity|].
  rewrite setMarginOn_no_landing by (apply H; left; reflexivity).
  rewrite IH by (intros it' Hin; apply H; right; exact Hin).
  reflexivity.
Qed.

(** ** Worked states *)

Lemma number_eqb_eq (a b : number) : number_eqb a b = true -> a = b.
Proof.
  destruct a, b; cbn; intro H; try discriminate; try reflexivity.
  f_equal. apply Qceqb_eq, H.
Qed.

Ltac number_compute := apply number_eqb_eq; vm_compute; reflexivity.

Lemma margin_target_toggle_witness :
  nth_error (App.setItemToMargin [Sample.blank; Sample.sofa] 2 (ofZ 50)) 1
  = Some Sample.sofa_at_50 /\
  nth_error (App.setItemToMargin
               (App.setItemToMargin [Sample.blank; Sample.sofa] 2 (ofZ 50))
               2 (ofZ 50)) 1
  = Some Sample.sofa.
Proof.
  assert (Hi : nth_error [Sample.blank; Sample.sofa] 1 = Some Sample.sofa)
    by reflexivity.
  assert (Hl : gtb (App.parseMoney (App.Item.landingCost Sample.sofa)) (ofZ 0)
               = true) by (vm_compute; reflexivity).
  assert (Ht : ofZ 50 <> NaN) by discriminate.
  exact (margin_target_toggle [Sample.blank; Sample.sofa] 1 Sample.sofa
           (ofZ 50) Hi Hl eq_refl eq_refl Ht).
Defined.

Lemma setItemToMargin_without_landing_witness :
  App.setItemToMargin [Sample.sofa; Sample.unlanded] 3 (ofZ 50)
  = [Sample.sofa; Sample.unlanded].
Proof.
  apply (setItemToMargin_without_landing [Sample.sofa; Sample.unlanded] 3
           (ofZ 50)).
  intros it [<-|[<-|[]]] E.
  - discriminate E.
  - vm_compute. reflexivity.
Defined.

(** ** Quantity *)

(** Whatever the state, a quantity field that parses to 0 is replaced by
    1 ([parseInt(item.qty) || 1]). *)
Lemma zero_quantity_defaults_to_one (st : App.State) (it : App.Item.t) :
  parseInt (App.Item.qty it) = ofZ 0 ->
  App.CalcItem.qty (App.calculateItem st it) = ofZ 1.
Proof.
  intro H. unfold App.calculateItem. rewrite H.
  destruct (App.resolvePrices st it _) as [[? ?] ?]. reflexivity.
Qed.

(** C8, on the code. The item of the test "should handle zero quantity"
    (price 1000, landing cost 500, quantity 0) in Margin Check mode with
    the default settings: the quantity used is 1, the line total is the
    invoice price 1000 / 1.09125 and not 0, and the landing cost counted
    is 500 and not 0. *)
Theorem zero_quantity_counts_one_unit :
  parseInt (App.Item.qty Sample.zero_qty) = ofZ 0 /\
  App.CalcItem.qty
    (App.calculateItem (Sample.deal App.margin true App.sale [Sample.zero_qty])
       Sample.zero_qty) = ofZ 1 /\
  App.CalcItem.lineTotal
    (App.calculateItem (Sample.deal App.margin true App.sale [Sample.zero_qty])
       Sample.zero_qty) = Fin (Q2Qc (inject_Z 1000) / QTAX) /\
  App.subtotal (Sample.deal App.margin true App.sale [Sample.zero_qty])
  <> ofZ 0 /\
  App.totalLandingCost (Sample.deal App.margin true App.sale [Sample.zero_qty])
  = ofZ 500.
Proof.
  split; [reflexivity|].
  split; [apply zero_quantity_defaults_to_one; reflexivity|].
  split; [number_compute|].
  split; [|number_compute].
  replace (App.subtotal _) with (Fin (Q2Qc (inject_Z 1000) / QTAX))
    by (symmetry; number_compute).
  discriminate.
Qed.

(** ** The filter of the aggregation *)





(** ** The documented examples

    Tag price 1200, landing cost 600, 30% off, delivery 135. *)

Example quote_no_tax_promo :
  toFixed2 (App.customerTotal
              (Sample.deal App.quote true App.tag [Sample.sofa]))
  = "987.32"%string.
Proof. vm_compute. reflexivity. Qed.

Example quote_with_tax :
  toFixed2 (App.subtotal (Sample.deal App.quote false App.tag [Sample.sofa]))
  = "840.00"%string /\
  toFixed2 (App.taxOnMerchandise
              (Sample.deal App.quote false App.tag [Sample.sofa]))
  = "76.65"%string /\
  toFixed2 (App.deliveryTax (Sample.deal App.quote false App.tag [Sample.sofa]))
  = "12.32"%string /\
  toFixed2 (App.customerTotal
              (Sample.deal App.quote false App.tag [Sample.sofa]))
  = "1063.97"%string.
Proof. repeat split; vm_compute; reflexivity. Qed.

Example margin_check_sofa :
  option_map toFixed2
    (App.overallMargin (Sample.deal App.margin false App.sale [Sample.sofa]))
  = Some "50.00"%string /\
  toFixed2 (App.totalProfit
              (Sample.deal App.margin false App.sale [Sample.sofa]))
  = "600.00"%string.
Proof. split; vm_compute; reflexivity. Qed.

(* ================================================================= *)
(** * Part III: further properties of the code *)
(* ================================================================= *)

(** ** Parsed inputs *)

Lemma or_else_cases (a d : number) :
  (truthy a = true /\ or_else a d = a) \/ (truthy a = false /\ or_else a d = d).
Proof. unfold or_else. destruct (truthy a); [left|right]; split; reflexivity. Qed.

Lemma parseMoney_not_NaN (s : string) : App.parseMoney s <> NaN.
Proof.
  unfold App.parseMoney.
  destruct (or_else_cases (parseFloat (App.strip_money s)) (ofZ 0))
    as [[Ht ->]|[_ ->]]; [|discriminate].
  intro E. rewrite E in Ht. discriminate Ht.
Qed.



Lemma mul_Fin (a b : Qc) : mul (Fin a) (Fin b) = Fin (a * b).
Proof. reflexivity. Qed.




(** ** Prices of a line item *)





(** ** Margin against the target price *)

Lemma Qcle_mult_pos_iff (x y z : Qc) : 0 < z -> (x <= y <-> x * z <= y * z).
Proof.
  intro Hz. split.
  - intro H. apply Qcmult_le_compat_r; [exact H | apply Qclt_le_weak, Hz].
  - apply Qcmult_lt_0_le_reg_r, Hz.
Qed.



(** ** Sums over the aggregated items *)












(** ** The OTD panel *)






Lemma hundred_minus_nz (m : Qc) : m <> Q100 -> Q100 - m <> 0.
Proof.
  intros Hne E. apply Hne.
  transitivity (Q100 - (Q100 - m)); [ring | rewrite E; ring].
Qed.



Lemma Qclt_mult_pos_iff (x y z : Qc) : 0 < z -> (x < y <-> x * z < y * z).
Proof.
  intro Hz. split.
  - intro H. apply Qcmult_lt_compat_r; assumption.
  - intro H. apply Qcnot_le_lt. intro Hle.
    apply (Qcle_mult_pos_iff y x z Hz) in Hle.
    exact (Qclt_not_le _ _ H Hle).
Qed.





(** ** Margin clicks: what stays, and switching targets *)

Lemma setMarginOn_keeps (itemId : Z) (t : number) (it : App.Item.t) :
  App.Item.id (App.setMarginOn itemId t it) = App.Item.id it /\
  App.Item.name (App.setMarginOn itemId t it) = App.Item.name it /\
  App.Item.qty (App.setMarginOn itemId t it) = App.Item.qty it /\
  App.Item.landingCost (App.setMarginOn itemId t it) = App.Item.landingCost it.
Proof.
  unfold App.setMarginOn.
  destruct (App.Item.id it =? itemId)%Z; [|repeat split].
  destruct (gtb _ _); [|repeat split].
  destruct (App.restorable it t); repeat split.
Qed.

Lemma setMarginOn_other (itemId : Z) (t : number) (it : App.Item.t) :
  App.Item.id it <> itemId -> App.setMarginOn itemId t it = it.
Proof.
  intro H. unfold App.setMarginOn.
  destruct (Z.eqb_spec (App.Item.id it) itemId); [contradiction | reflexivity].
Qed.

(** X8. [setItemToMargin] never changes the ids, names, quantities or landing
    costs of the items, nor their number and order, and leaves every item
    with another id as it was. *)
Theorem setItemToMargin_frame (items : list App.Item.t) (itemId : Z)
  (t : number) :
  map App.Item.id (App.setItemToMargin items itemId t) = map App.Item.id items /\
  map App.Item.name (App.setItemToMargin items itemId t)
  = map App.Item.name items /\
  map App.Item.qty (App.setItemToMargin items itemId t) = map App.Item.qty items /\
  map App.Item.landingCost (App.setItemToMargin items itemId t)
  = map App.Item.landingCost items /\
  (forall i it, nth_error items i = Some it -> App.Item.id it <> itemId ->
     nth_error (App.setItemToMargin items itemId t) i = Some it).
Proof.
  unfold App.setItemToMargin. rewrite !map_map.
  repeat split;
    try (apply map_ext; intro it; apply (setMarginOn_keeps itemId t it)).
  intros i it Hi Hne. rewrite nth_error_map, Hi. cbn.
  rewrite setMarginOn_other by exact Hne. reflexivity.
Qed.

Lemma setMarginOn_switch (it : App.Item.t) (t1 t2 : number) (saved : string) :
  gtb (App.parseMoney (App.Item.landingCost it)) (ofZ 0) = true ->
  App.Item.marginSet it = true ->
  App.Item.selectedMargin it = Some t1 ->
  App.Item.originalPrice it = Some saved ->
  strict_eq t1 t2 = false ->
  App.setMarginOn (App.Item.id it) t2 it
  = App.Item.mk (App.Item.id it) (App.Item.name it)
      (toFixed2 (App.priceForMargin
                   (App.parseMoney (App.Item.landingCost it)) t2))
      (App.Item.qty it) (App.Item.landingCost it) true (Some t2) (Some saved).
Proof.
  intros Hl Hset Hsel Horig Hne. unfold App.setMarginOn, App.restorable.
  rewrite Z.eqb_refl, Hl, Hsel. cbn [App.selected_is].
  rewrite Hne, Hset, Horig. reflexivity.
Qed.

(** X9. On an item with a positive landing cost and no target selected, a click
    on one target followed by a click on a different target keeps the price
    that was typed as the saved price, and a second click on that second
    target restores it. *)
Theorem switching_targets_keeps_typed_price (items : list App.Item.t) (i : nat)
  (it : App.Item.t) (t1 t2 : number) :
  nth_error items i = Some it ->
  gtb (App.parseMoney (App.Item.landingCost it)) (ofZ 0) = true ->
  App.Item.marginSet it = false ->
  App.Item.selectedMargin it = None ->
  strict_eq t1 t2 = false ->
  t2 <> NaN ->
  nth_error
    (App.setItemToMargin (App.setItemToMargin items (App.Item.id it) t1)
       (App.Item.id it) t2) i
  = Some (App.Item.mk (App.Item.id it) (App.Item.name it)
            (toFixed2 (App.priceForMargin
                         (App.parseMoney (App.Item.landingCost it)) t2))
            (App.Item.qty it) (App.Item.landingCost it) true (Some t2)
            (Some (App.Item.price it))) /\
  nth_error
    (App.setItemToMargin
       (App.setItemToMargin (App.setItemToMargin items (App.Item.id it) t1)
          (App.Item.id it) t2) (App.Item.id it) t2) i
  = Some (App.Item.mk (App.Item.id it) (App.Item.name it)
            (App.Item.price it) (App.Item.qty it) (App.Item.landingCost it)
            false None None).
Proof.
  intros Hi Hl Hset Hsel Hne Ht2.
  unfold App.setItemToMargin.
  rewrite !nth_error_map, Hi. cbn [option_map].
  rewrite (setMarginOn_first it t1 Hl Hset Hsel).
  set (it1 := App.Item.mk _ _ _ _ _ _ (Some t1) _).
  change (App.Item.id it) with (App.Item.id it1).
  rewrite (setMarginOn_switch it1 t1 t2 (App.Item.price it)); try reflexivity;
    try assumption.
  cbn [App.Item.id App.Item.name App.Item.qty App.Item.landingCost it1].
  split; [reflexivity|]. f_equal.
  set (it2 := App.Item.mk _ _ _ _ _ _ (Some t2) _).
  change (App.Item.id it) with (App.Item.id it2).
  rewrite (setMarginOn_restore it2 t2 (App.Item.price it)); try reflexivity;
    assumption.
Qed.

(** X10. [updateItemPrice] puts the item in the state of a typed price (no target,
    nothing saved) whatever it was before; a margin click after it sets the
    target price and saves the edited value. *)
Theorem manual_edit_discards_saved_price (items : list App.Item.t) (i : nat)
  (it : App.Item.t) (value : string) (t : number) :
  nth_error items i = Some it ->
  gtb (App.parseMoney (App.Item.landingCost it)) (ofZ 0) = true ->
  nth_error (App.updateItemPrice items (App.Item.id it) value) i
  = Some (App.Item.mk (App.Item.id it) (App.Item.name it) value
            (App.Item.qty it) (App.Item.landingCost it) false None None) /\
  nth_error
    (App.setItemToMargin (App.updateItemPrice items (App.Item.id it) value)
       (App.Item.id it) t) i
  = Some (App.Item.mk (App.Item.id it) (App.Item.name it)
            (toFixed2 (App.priceForMargin
                         (App.parseMoney (App.Item.landingCost it)) t))
            (App.Item.qty it) (App.Item.landingCost it) true (Some t)
            (Some value)).
Proof.
  intros Hi Hl. unfold App.setItemToMargin, App.updateItemPrice.
  rewrite !nth_error_map, Hi. cbn [option_map]. rewrite Z.eqb_refl.
  split; [reflexivity|]. f_equal.
  set (it1 := App.Item.mk _ _ _ _ _ _ _ _).
  change (App.Item.id it) with (App.Item.id it1).
  rewrite (setMarginOn_first it1 t); try reflexivity. exact Hl.
Qed.

(** ** Adding and removing items *)




Lemma discounted_zero (st : App.State) :
  App.discounted st (ofZ 0) = ofZ 0 \/ App.discounted st (ofZ 0) = NaN.
Proof.
  unfold App.discounted, App.discount.
  destruct (App.priceType st); [left; reflexivity|].
  destruct (App.salePercent st) as [sp| | |].
  - left. unfold ofZ. rewrite div_Fin by discriminate.
    cbn [sub neg add mul]. apply Fin_eq. qc_to_q. ring.
  - right. reflexivity.
  - right. reflexivity.
  - right. reflexivity.
Qed.

Lemma blank_item_dropped (st : App.State) (now : Z) :
  App.keepItem
    (App.calculateItem st (App.Item.mk now "" "" "1" "" false None None))
  = false.
Proof.
  unfold App.keepItem, App.calculateItem, App.resolvePrices.
  cbn [App.Item.price App.Item.qty App.Item.landingCost App.Item.marginSet].
  change (App.parseMoney "") with (ofZ 0).
  change (or_else (parseInt "1") (ofZ 1)) with (ofZ 1).
  cbn [andb].
  change (gtb (ofZ 0) (ofZ 0)) with false. cbn [andb].
  destruct (discounted_zero st) as [E|E]; rewrite E;
    destruct (App.mode st), (App.noTaxPromo st); reflexivity.
Qed.

(** X12. The blank item that [addItem] appends is left out of the aggregation in
    every mode and for every setting, so adding it changes neither the
    aggregated items nor the customer total. *)
Theorem adding_a_blank_item_changes_no_total (st : App.State) (now : Z) :
  App.calculatedItems
    (App.mkState (App.mode st) (App.salePercent st) (App.noTaxPromo st)
       (App.priceType st) (App.delivery st) (App.addItem now (App.items st))
       (App.otdPrice st))
  = App.calculatedItems st /\
  App.customerTotal
    (App.mkState (App.mode st) (App.salePercent st) (App.noTaxPromo st)
       (App.priceType st) (App.delivery st) (App.addItem now (App.items st))
       (App.otdPrice st))
  = App.customerTotal st.
Proof.
  assert (E : App.calculatedItems
                (App.mkState (App.mode st) (App.salePercent st)
                   (App.noTaxPromo st) (App.priceType st) (App.delivery st)
                   (App.addItem now (App.items st)) (App.otdPrice st))
              = App.calculatedItems st).
  { unfold App.calculatedItems, App.addItem. cbn [App.items].
    rewrite map_app, filter_app. cbn [map filter].
    change (App.calculateItem (App.mkState _ _ _ _ _ _ _))
      with (App.calculateItem st).
    rewrite blank_item_dropped. apply app_nil_r. }
  split; [exact E|].
  unfold App.customerTotal, App.taxOnMerchandise, App.subtotal,
    App.deliveryTax, App.deliveryAmount.
  rewrite E. reflexivity.
Qed.

(** ** Validation before the results *)

Lemma calculateItem_landingCost (st : App.State) (it : App.Item.t) :
  App.CalcItem.landingCost (App.calculateItem st it)
  = App.parseMoney (App.Item.landingCost it).
Proof.
  unfold App.calculateItem.
  destruct (App.resolvePrices st it _) as [[? ?] ?]. reflexivity.
Qed.

(** X13. In Margin Check and OTD mode, when [calculate] accepts the input, at least
    one item with a positive landing cost is aggregated. *)
Theorem accepted_margin_deal_has_an_item (st : App.State) :
  App.mode st <> App.quote ->
  App.calculate st = true ->
  exists ci, In ci (App.calculatedItems st) /\
             gtb (App.CalcItem.landingCost ci) (ofZ 0) = true.
Proof.
  intros Hmode Hcalc.
  assert (Hex : existsb
                  (fun item => gtb (App.parseMoney (App.Item.landingCost item))
                                 (ofZ 0)) (App.items st) = true).
  { unfold App.calculate in Hcalc. destruct (App.mode st).
    - contradiction.
    - exact Hcalc.
    - destruct (leb _ _); [discriminate | exact Hcalc]. }
  apply existsb_exists in Hex as (it & Hin & Hgt).
  exists (App.calculateItem st it).
  assert (Hl : gtb (App.CalcItem.landingCost (App.calculateItem st it)) (ofZ 0)
               = true) by (rewrite calculateItem_landingCost; exact Hgt).
  split; [|exact Hl].
  unfold App.calculatedItems. apply filter_In. split.
  - apply in_map. exact Hin.
  - unfold App.keepItem. rewrite Hl. apply orb_true_r.
Qed.

(** ** The test helpers against the calculator *)

Lemma strict_eq_Fin (a b : Qc) : strict_eq (Fin a) (Fin b) = Qceqb a b.
Proof. unfold strict_eq, Qceqb, compare. destruct (a ?= b); reflexivity. Qed.

(** X14. The test helper [calculateMargin] returns what the calculator's
    [calculateMargin] returns on every non-negative finite sale price; on a
    negative sale price the calculator returns 0 and the helper returns
    [(salePrice - landingCost) / salePrice * 100]. *)
Theorem helper_margin_against_calculator (s l : Qc) :
  (0 <= s ->
   Calc.calculateMargin (Fin s) (Fin l) = App.calculateMargin (Fin s) (Fin l)) /\
  (s < 0 ->
   App.calculateMargin (Fin s) (Fin l) = ofZ 0 /\
   Calc.calculateMargin (Fin s) (Fin l) = Fin ((s - l) / s * Q100)).
Proof.
  unfold Calc.calculateMargin, App.calculateMargin, ofZ.
  rewrite strict_eq_Fin, leb_Fin. change (Q2Qc (inject_Z 0)) with 0.
  split.
  - intro Hs. destruct (Qceqb s 0) eqn:E.
    + apply Qceqb_eq in E. subst s. reflexivity.
    + apply Qceqb_neq in E.
      replace (Qcleb s 0) with false; [reflexivity|].
      symmetry. apply Qcleb_nle.
      destruct (Qcle_lt_or_eq _ _ Hs) as [H|H]; [exact H | congruence].
  - intro Hs.
    replace (Qcleb s 0) with true
      by (symmetry; apply Qcleb_le, Qclt_le_weak, Hs).
    split; [reflexivity|].
    assert (Hne : s <> 0) by (apply Qclt_not_eq, Hs).
    replace (Qceqb s 0) with false by (symmetry; apply Qceqb_neq, Hne).
    cbn [sub neg add]. rewrite div_Fin by exact Hne. reflexivity.
Qed.

Lemma helper_margin_against_calculator_witness :
  Calc.calculateMargin (ofZ 1200) (ofZ 600) = App.calculateMargin (ofZ 1200) (ofZ 600) /\
  App.calculateMargin (ofZ (-100)) (ofZ 100) = ofZ 0 /\
  Calc.calculateMargin (ofZ (-100)) (ofZ 100)
  = Fin ((Q2Qc (inject_Z (-100)) - Q100) / Q2Qc (inject_Z (-100)) * Q100).
Proof.
  split.
  - apply (proj1 (helper_margin_against_calculator
                    (Q2Qc (inject_Z 1200)) (Q2Qc (inject_Z 600)))).
    discriminate.
  - apply (proj2 (helper_margin_against_calculator
                    (Q2Qc (inject_Z (-100))) Q100)).
    reflexivity.
Defined.



(** ** Rounding to cents *)

Lemma Qfloor_half (n : Z) : Qfloor (inject_Z n + (1 # 2)) = n.
Proof.
  pose proof (Qfloor_le (inject_Z n + (1 # 2))) as Hlo.
  pose proof (Qlt_floor (inject_Z n + (1 # 2))) as Hhi.
  set (k := Qfloor _) in *.
  rewrite inject_Z_plus in Hhi.
  assert (H1 : (inject_Z k < inject_Z (n + 1))%Q)
    by (rewrite inject_Z_plus; unfold inject_Z at 3; lra).
  assert (H2 : (inject_Z n < inject_Z (k + 1))%Q)
    by (rewrite inject_Z_plus; unfold inject_Z at 3; unfold inject_Z at 3 in Hhi; lra).
  rewrite <- Zlt_Qlt in H1, H2. lia.
Qed.

Lemma roundMoney_Fin (q : Qc) :
  Calc.roundMoney (Fin q)
  = Fin (Q2Qc (inject_Z (Qfloor (this (q * Q100) + (1 # 2)))) / Q100).
Proof.
  unfold Calc.roundMoney, Math_round, ofZ. cbn [mul].
  rewrite div_Fin by discriminate. reflexivity.
Qed.

Lemma roundMoney_cents (n : Z) :
  Calc.roundMoney (Fin (Q2Qc (inject_Z n) / Q100))
  = Fin (Q2Qc (inject_Z n) / Q100).
Proof.
  rewrite roundMoney_Fin.
  replace (Q2Qc (inject_Z n) / Q100 * Q100) with (Q2Qc (inject_Z n))
    by (field; discriminate).
  assert (E : Qfloor (this (Q2Qc (inject_Z n)) + (1 # 2)) = n).
  { rewrite <- (Qfloor_half n) at 2. apply Qfloor_comp.
    apply Qplus_comp; [|reflexivity]. cbn [this Q2Qc]. apply Qred_correct. }
  rewrite E. reflexivity.
Qed.

(** X16. [roundMoney] is idempotent on finite numbers. *)
Theorem roundMoney_idempotent (q : Qc) :
  Calc.roundMoney (Calc.roundMoney (Fin q)) = Calc.roundMoney (Fin q).
Proof.
  rewrite (roundMoney_Fin q). apply roundMoney_cents.
Qed.

(** ** Integers among the numbers *)

Lemma add_ofZ (a b : Z) : add (ofZ a) (ofZ b) = ofZ (a + b).
Proof.
  unfold ofZ. cbn [add]. apply Fin_eq. qc_to_q.
  rewrite inject_Z_plus. reflexivity.
Qed.


Lemma Qcompare_inject_Z (a b : Z) : (inject_Z a ?= inject_Z b)%Q = (a ?= b)%Z.
Proof. unfold Qcompare, inject_Z. cbn. rewrite !Z.mul_1_r. reflexivity. Qed.

Lemma Qccompare_ofZ (a b : Z) :
  (Q2Qc (inject_Z a) ?= Q2Qc (inject_Z b)) = (a ?= b)%Z.
Proof.
  unfold Qccompare. cbn [this Q2Qc].
  rewrite !Qred_correct. apply Qcompare_inject_Z.
Qed.

Lemma ltb_ofZ (a b : Z) : ltb (ofZ a) (ofZ b) = (a <? b)%Z.
Proof.
  unfold ofZ. rewrite ltb_Fin. unfold Qcltb. rewrite Qccompare_ofZ.
  unfold Z.ltb. reflexivity.
Qed.

Lemma gtb_ofZ (a b : Z) : gtb (ofZ a) (ofZ b) = (b <? a)%Z.
Proof. apply ltb_ofZ. Qed.







(** ** The scroll wheel picker *)








Lemma getColumn_setColumn (w : App.Wheel.t) (col : App.Column) (v : number) :
  App.getColumn (App.setColumn w col v) col = v.
Proof. destruct col; reflexivity. Qed.

Lemma setColumn_setColumn (w : App.Wheel.t) (col : App.Column) (a b : number) :
  App.setColumn (App.setColumn w col a) col b = App.setColumn w col b.
Proof. destruct col; reflexivity. Qed.

Lemma setColumn_getColumn (w : App.Wheel.t) (col : App.Column) :
  App.setColumn w col (App.getColumn w col) = w.
Proof. destruct w, col; reflexivity. Qed.

Lemma getColumn_setColumn_other (w : App.Wheel.t) (col col' : App.Column)
  (v : number) :
  col' <> col -> App.getColumn (App.setColumn w col v) col' = App.getColumn w col'.
Proof. destruct col, col'; intro H; try reflexivity; contradiction. Qed.

Lemma updateWheelColumn_step (w : App.Wheel.t) (col : App.Column) (z M d : Z) :
  App.getColumn w col = ofZ z -> App.maxValues col = ofZ M ->
  App.updateWheelColumn w col (ofZ d)
  = App.setColumn w col
      (ofZ (if (M <? (if (z + d <? 0)%Z then M else z + d))%Z then 0
            else if (z + d <? 0)%Z then M else z + d)).
Proof.
  intros Hz HM. unfold App.updateWheelColumn.
  rewrite Hz, HM, add_ofZ, ltb_ofZ.
  destruct (z + d <? 0)%Z; rewrite gtb_ofZ; destruct (_ <? _)%Z; reflexivity.
Qed.

(** X19. On a column within its range, a step up adds 1 and wraps from the
    maximum to 0, a step down subtracts 1 and wraps from 0 to the maximum, a
    step up and a step down cancel in either order, and no other column
    changes. *)
Theorem wheel_column_steps_wrap (w : App.Wheel.t) (col : App.Column) (z M : Z) :
  App.getColumn w col = ofZ z -> App.maxValues col = ofZ M ->
  (0 <= z <= M)%Z ->
  App.getColumn (App.updateWheelColumn w col (ofZ 1)) col
  = ofZ (if (z =? M)%Z then 0 else z + 1) /\
  App.getColumn (App.updateWheelColumn w col (ofZ (-1))) col
  = ofZ (if (z =? 0)%Z then M else z - 1) /\
  App.updateWheelColumn (App.updateWheelColumn w col (ofZ 1)) col (ofZ (-1)) = w /\
  App.updateWheelColumn (App.updateWheelColumn w col (ofZ (-1))) col (ofZ 1) = w /\
  (forall col' d, col' <> col ->
     App.getColumn (App.updateWheelColumn w col d) col' = App.getColumn w col').
Proof.
  intros Hz HM Hr.
  assert (Up : App.updateWheelColumn w col (ofZ 1)
               = App.setColumn w col (ofZ (if (z =? M)%Z then 0 else z + 1))).
  { rewrite (updateWheelColumn_step w col z M 1 Hz HM). do 2 f_equal.
    destruct (Z.ltb_spec (z + 1) 0), (Z.eqb_spec z M); try lia.
    - destruct (Z.ltb_spec M (z + 1)); lia.
    - destruct (Z.ltb_spec M (z + 1)); lia. }
  assert (Down : App.updateWheelColumn w col (ofZ (-1))
                 = App.setColumn w col (ofZ (if (z =? 0)%Z then M else z - 1))).
  { rewrite (updateWheelColumn_step w col z M (-1) Hz HM). do 2 f_equal.
    destruct (Z.ltb_spec (z + -1) 0), (Z.eqb_spec z 0); try lia.
    - destruct (Z.ltb_spec M M); lia.
    - destruct (Z.ltb_spec M (z + -1)); lia. }
  split; [rewrite Up; apply getColumn_setColumn|].
  split; [rewrite Down; apply getColumn_setColumn|].
  split; [|split].
  - rewrite Up.
    rewrite (updateWheelColumn_step _ col (if (z =? M)%Z then 0 else z + 1) M (-1))
      by (try apply getColumn_setColumn; exact HM).
    rewrite setColumn_setColumn.
    transitivity (App.setColumn w col (App.getColumn w col));
      [|apply setColumn_getColumn].
    rewrite Hz. do 2 f_equal.
    destruct (Z.eqb_spec z M).
    + cbn. destruct (Z.ltb_spec M M); lia.
    + destruct (Z.ltb_spec (z + 1 + -1) 0); [lia|].
      destruct (Z.ltb_spec M (z + 1 + -1)); lia.
  - rewrite Down.
    rewrite (updateWheelColumn_step _ col (if (z =? 0)%Z then M else z - 1) M 1)
      by (try apply getColumn_setColumn; exact HM).
    rewrite setColumn_setColumn.
    transitivity (App.setColumn w col (App.getColumn w col));
      [|apply setColumn_getColumn].
    rewrite Hz. do 2 f_equal.
    destruct (Z.eqb_spec z 0).
    + destruct (Z.ltb_spec (M + 1) 0); [lia|].
      destruct (Z.ltb_spec M (M + 1)); lia.
    + destruct (Z.ltb_spec (z - 1 + 1) 0); [lia|].
      destruct (Z.ltb_spec M (z - 1 + 1)); lia.
  - intros col' d Hne. unfold App.updateWheelColumn.
    apply getColumn_setColumn_other, Hne.
Qed.

(** ** Printing and parsing amounts *)


















(** ** A margin click, then the calculation *)



(** ** Target prices *)

(** X23. For a positive landing cost the target price grows with the target margin
    (below 100), and the price for a margin of 50 is twice the landing
    cost. *)
Theorem higher_target_needs_higher_price (L m1 m2 : Qc) :
  0 < L -> m1 < m2 -> m2 < Q100 ->
  ltb (App.priceForMargin (Fin L) (Fin m1)) (App.priceForMargin (Fin L) (Fin m2))
  = true /\
  App.priceForMargin (Fin L) (ofZ 50) = Fin (L * Q2Qc (inject_Z 2)).
Proof.
  intros HL H12 H2.
  assert (H1 : m1 < Q100) by (eapply Qclt_trans; eassumption).
  assert (Hd1 : 0 < 1 - m1 / Q100) by qc_lra.
  assert (Hd2 : 0 < 1 - m2 / Q100) by qc_lra.
  split.
  - rewrite !priceForMargin_Fin by (apply Qclt_not_eq; assumption).
    rewrite ltb_Fin. apply Qcltb_lt.
    apply (Qclt_mult_pos_iff _ _ _ Hd1).
    apply (Qclt_mult_pos_iff _ _ _ Hd2).
    replace (L / (1 - m1 / Q100) * (1 - m1 / Q100) * (1 - m2 / Q100))
      with (L * (1 - m2 / Q100))
      by (field; split; [discriminate | apply hundred_minus_nz, Qclt_not_eq, H1]).
    replace (L / (1 - m2 / Q100) * (1 - m1 / Q100) * (1 - m2 / Q100))
      with (L * (1 - m1 / Q100))
      by (field; split; [discriminate | apply hundred_minus_nz, Qclt_not_eq, H2]).
    rewrite !(Qcmult_comm L). apply Qcmult_lt_compat_r; [exact HL | qc_lra].
  - unfold ofZ. rewrite priceForMargin_Fin by discriminate.
    apply Fin_eq. reflexivity.
Qed.

(** ** The properties on the sample deals *)







Lemma setItemToMargin_frame_witness :
  nth_error Sample.three_items 0 = Some Sample.blank /\
  App.Item.id Sample.blank <> 2%Z /\
  nth_error (App.setItemToMargin Sample.three_items 2 (ofZ 50)) 0
  = Some Sample.blank.
Proof.
  assert (H1 : nth_error Sample.three_items 0 = Some Sample.blank)
    by reflexivity.
  assert (H2 : App.Item.id Sample.blank <> 2%Z) by discriminate.
  split; [exact H1|]. split; [exact H2|].
  exact (proj2 (proj2 (proj2 (proj2
           (setItemToMargin_frame Sample.three_items 2 (ofZ 50)))))
           0%nat Sample.blank H1 H2).
Defined.

Lemma switching_targets_keeps_typed_price_witness :
  nth_error
    (App.setItemToMargin
       (App.setItemToMargin
          (App.setItemToMargin Sample.three_items 2 (ofZ 50)) 2 (ofZ 47))
       2 (ofZ 47)) 1
  = Some Sample.sofa.
Proof.
  assert (Hi : nth_error Sample.three_items 1 = Some Sample.sofa)
    by reflexivity.
  assert (Hl : gtb (App.parseMoney (App.Item.landingCost Sample.sofa)) (ofZ 0)
               = true) by (vm_compute; reflexivity).
  assert (Hne : strict_eq (ofZ 50) (ofZ 47) = false) by reflexivity.
  assert (Ht : ofZ 47 <> NaN) by discriminate.
  exact (proj2 (switching_targets_keeps_typed_price Sample.three_items 1
                  Sample.sofa (ofZ 50) (ofZ 47) Hi Hl eq_refl eq_refl Hne Ht)).
Defined.

Lemma manual_edit_discards_saved_price_witness :
  nth_error
    (App.setItemToMargin
       (App.updateItemPrice
          (App.setItemToMargin Sample.three_items 2 (ofZ 50)) 2 "999")
       2 (ofZ 50)) 1
  = Some (App.Item.mk 2 "Sofa" "1200.00" "1" "600" true (Some (ofZ 50))
            (Some "999"%string)).
Proof.
  assert (Hi : nth_error (App.setItemToMargin Sample.three_items 2 (ofZ 50)) 1
               = Some Sample.sofa_at_50) by (vm_compute; reflexivity).
  assert (Hl : gtb (App.parseMoney (App.Item.landingCost Sample.sofa_at_50))
                 (ofZ 0) = true) by (vm_compute; reflexivity).
  exact (proj2 (manual_edit_discards_saved_price
                  (App.setItemToMargin Sample.three_items 2 (ofZ 50)) 1
                  Sample.sofa_at_50 "999" (ofZ 50) Hi Hl)).
Defined.


Lemma accepted_margin_deal_has_an_item_witness :
  App.calculate Sample.margin_deal = true /\
  exists ci, In ci (App.calculatedItems Sample.margin_deal) /\
             gtb (App.CalcItem.landingCost ci) (ofZ 0) = true.
Proof.
  assert (Hc : App.calculate Sample.margin_deal = true)
    by (vm_compute; reflexivity).
  split; [exact Hc|].
  apply (accepted_margin_deal_has_an_item Sample.margin_deal);
    [discriminate | exact Hc].
Defined.




Lemma wheel_column_steps_wrap_witness :
  App.getColumn (App.updateWheelColumn Sample.wheel_12345_67 App.thousands (ofZ (-1)))
    App.thousands = ofZ 11 /\
  App.updateWheelColumn
    (App.updateWheelColumn Sample.wheel_12345_67 App.thousands (ofZ 1))
    App.thousands (ofZ (-1)) = Sample.wheel_12345_67.
Proof.
  assert (Hz : App.getColumn Sample.wheel_12345_67 App.thousands = ofZ 12)
    by reflexivity.
  assert (HM : App.maxValues App.thousands = ofZ 99) by reflexivity.
  assert (Hr : (0 <= 12 <= 99)%Z) by lia.
  destruct (wheel_column_steps_wrap Sample.wheel_12345_67 App.thousands 12 99
              Hz HM Hr) as (_ & Hdown & Hud & _).
  split; [exact Hdown | exact Hud].
Defined.




Lemma higher_target_needs_higher_price_witness :
  ltb (App.priceForMargin (ofZ 600) (ofZ 47))
      (App.priceForMargin (ofZ 600) (ofZ 50)) = true.
Proof.
  apply (higher_target_needs_higher_price (Q2Qc (inject_Z 600)) Q47 Q50);
    reflexivity.
Defined.

(** ** One item, any quantity *)



(** ** The no-tax promotion in a quote *)





